(** * AI Translator & Critic: the model invocation adapter and its caller

    A shallow embedding of [src/app.py]: the adapter [call_llm], which
    builds a prompt, performs one HTTP POST and normalises whatever comes
    back into a four-field result dict, and the form handler [process],
    which calls the adapter once (translate) or twice (translate, judge).

    Python values are an inductive type, Python exceptions are values of
    an error monad whose state is the trace of observable events (log
    lines, HTTP requests, flashed messages).  The HTTP transport and the
    builtin [repr] are the two things the program takes from outside;
    they are section variables. *)

From Stdlib Require Import String Ascii List ZArith Bool Lia DecimalString.
From Stdlib Require Import Floats.PrimFloat.
Import ListNotations.
Open Scope string_scope.

(** ** Strings

    A Python [str] is modelled by the bytes of its UTF-8 encoding.
    Concatenation, equality and emptiness agree with the code-point
    view. *)

Module Str.

Definition chr (n : nat) : string := String (ascii_of_nat n) EmptyString.

(** The one-character strings the source writes as escapes. *)
Definition nl : string := chr 10.
Definition dquote : string := chr 34.

(** [sep.join(parts)] for a list of strings. *)
Definition join (sep : string) (parts : list string) : string :=
  String.concat sep parts.

(** [str.isspace] on one code point, read off its UTF-8 bytes.  The
    code points are U+0009..U+000D, U+001C..U+0020, U+0085, U+00A0,
    U+1680, U+2000..U+200A, U+2028, U+2029, U+202F, U+205F, U+3000. *)
Definition space1 (a : ascii) : bool :=
  let n := nat_of_ascii a in
  ((9 <=? n)%nat && (n <=? 13)%nat) || ((28 <=? n)%nat && (n <=? 32)%nat).

Definition space2 (a b : ascii) : bool :=
  let n := nat_of_ascii a in
  let m := nat_of_ascii b in
  (n =? 194)%nat && ((m =? 133)%nat || (m =? 160)%nat).

Definition space3 (a b c : ascii) : bool :=
  let n := nat_of_ascii a in
  let m := nat_of_ascii b in
  let k := nat_of_ascii c in
  ((n =? 225)%nat && (m =? 154)%nat && (k =? 128)%nat)
  || ((n =? 226)%nat && (m =? 128)%nat
      && (((128 <=? k)%nat && (k <=? 138)%nat) || (k =? 168)%nat || (k =? 169)%nat || (k =? 175)%nat))
  || ((n =? 226)%nat && (m =? 129)%nat && (k =? 159)%nat)
  || ((n =? 227)%nat && (m =? 128)%nat && (k =? 128)%nat).

(** Drop the whitespace characters at the head of a byte list.  With
    [fwd = false] the list is a reversed string, so a multi-byte
    character shows its last byte first. *)
Fixpoint drop_spaces (fwd : bool) (l : list ascii) : list ascii :=
  match l with
  | [] => []
  | a :: r1 =>
      if space1 a then drop_spaces fwd r1
      else
        match r1 with
        | [] => l
        | b :: r2 =>
            if (if fwd then space2 a b else space2 b a) then drop_spaces fwd r2
            else
              match r2 with
              | [] => l
              | c :: r3 =>
                  if (if fwd then space3 a b c else space3 c b a)
                  then drop_spaces fwd r3
                  else l
              end
        end
  end.

(** [s.strip()] *)
Definition strip (s : string) : string :=
  let l := drop_spaces true (list_ascii_of_string s) in
  string_of_list_ascii (rev (drop_spaces false (rev l))).

End Str.

(** ** Python values *)

(** The values that reach the adapter: what [json] parses a body to, and
    what a caller may put in the message list.  Dict keys are strings,
    as in JSON objects and in the message dicts the handler builds; a
    dict is its items in insertion order. *)
#[local] Set Warnings "-register-all".
Inductive PyVal : Type :=
| PNone
| PBool (b : bool)
| PInt (z : Z)
| PFloat (f : float)
| PStr (s : string)
| PList (l : list PyVal)
| PDict (d : list (string * PyVal)).

Module Py.

(** [bool(v)] *)
Definition truthy (v : PyVal) : bool :=
  match v with
  | PNone => false
  | PBool b => b
  | PInt z => negb (z =? 0)%Z
  | PFloat f => negb (PrimFloat.eqb f PrimFloat.zero)
  | PStr s => negb (s =? "")
  | PList l => match l with [] => false | _ => true end
  | PDict d => match d with [] => false | _ => true end
  end.

(** [isinstance(v, dict)] *)
Definition isinstance_dict (v : PyVal) : bool :=
  match v with PDict _ => true | _ => false end.

(** [isinstance(v, str)] *)
Definition isinstance_str (v : PyVal) : bool :=
  match v with PStr _ => true | _ => false end.

(** [type(v).__name__] *)
Definition type_name (v : PyVal) : string :=
  match v with
  | PNone => "NoneType"
  | PBool _ => "bool"
  | PInt _ => "int"
  | PFloat _ => "float"
  | PStr _ => "str"
  | PList _ => "list"
  | PDict _ => "dict"
  end.

(** The item stored under a key, if any. *)
Fixpoint lookup (k : string) (d : list (string * PyVal)) : option PyVal :=
  match d with
  | [] => None
  | (k', v) :: rest => if k' =? k then Some v else lookup k rest
  end.

(** [d.get(k, default)] on the items of a dict *)
Definition get_default (d : list (string * PyVal)) (k : string) (default : PyVal)
  : PyVal :=
  match lookup k d with
  | Some v => v
  | None => default
  end.

(** [a or b] for two already evaluated operands *)
Definition or_else (a b : PyVal) : PyVal :=
  if truthy a then a else b.

End Py.

(** ** Exceptions *)

(** The exception classes the handlers of [call_llm] tell apart.
    [requests.exceptions.JSONDecodeError] (raised by [Response.json] of
    current [requests]) derives from both [RequestException] and
    [ValueError]; [json.JSONDecodeError] (raised by older ones) is a
    [ValueError] only.  [OtherException] stands for any other class
    that derives from [Exception] ([RecursionError], [KeyError], ...),
    [NonException] for the classes that derive from [BaseException]
    alone ([KeyboardInterrupt], [SystemExit], [GeneratorExit]). *)
Inductive ExcClass : Type :=
| RequestException
| RequestsJSONDecodeError
| ValueError
| AttributeError
| OtherException (name : string)
| NonException (name : string).

(** An exception object: its class and [str(e)]. *)
Record PyExc : Type := mkExc { exc_class : ExcClass; exc_str : string }.

(** [isinstance(e, requests.RequestException)] *)
Definition is_RequestException (e : PyExc) : bool :=
  match exc_class e with
  | RequestException | RequestsJSONDecodeError => true
  | _ => false
  end.

(** [isinstance(e, ValueError)] *)
Definition is_ValueError (e : PyExc) : bool :=
  match exc_class e with
  | RequestsJSONDecodeError | ValueError => true
  | _ => false
  end.

(** [isinstance(e, Exception)] *)
Definition is_Exception (e : PyExc) : bool :=
  match exc_class e with
  | NonException _ => false
  | _ => true
  end.

(** The outcome of evaluating something that may raise. *)
Inductive Res (A : Type) : Type :=
| Val (a : A)
| Raise (e : PyExc).
Arguments Val {A} a.
Arguments Raise {A} e.

(** ** The outside world *)

(** What [requests.post(url, json=..., headers=..., timeout=...)] is
    called with. *)
Record HttpRequest : Type := mkRequest {
  req_url : string;
  req_json : PyVal;
  req_headers : list (string * string);
  req_timeout : Z
}.

(** What the adapter reads from a [requests.Response]: the attributes
    [text] and [status_code], and the outcome of the method [json()]. *)
Record Response : Type := mkResponse {
  resp_text : string;
  resp_status_code : Z;
  resp_json : Res PyVal
}.

Inductive LogLevel : Type := INFO | WARNING | ERROR.

(** The observable events, in the order they happen.  A log record
    keeps its format string and arguments apart, as [logging] does;
    [logger.exception] also attaches the exception being handled. *)
Inductive Event : Type :=
| EvLog (level : LogLevel) (fmt : string) (args : list PyVal) (exc_info : option PyExc)
| EvPost (req : HttpRequest)
| EvFlash (message : string).

Definition Trace : Type := list Event.

(** The HTTP requests of a trace, oldest first. *)
Fixpoint posts (t : Trace) : list HttpRequest :=
  match t with
  | [] => []
  | EvPost r :: rest => r :: posts rest
  | _ :: rest => posts rest
  end.

(** ** Computations: a trace that survives exceptions *)

Definition M (A : Type) : Type := Trace -> Res A * Trace.

Definition ret {A} (a : A) : M A := fun t => (Val a, t).

Definition bind {A B} (m : M A) (k : A -> M B) : M B :=
  fun t =>
    match m t with
    | (Val a, t') => k a t'
    | (Raise e, t') => (Raise e, t')
    end.

Definition raise {A} (e : PyExc) : M A := fun t => (Raise e, t).

Definition emit (ev : Event) : M unit := fun t => (Val tt, (t ++ [ev])%list).

(** [try: body  except C as e: handler(e)] where [catches] decides
    [isinstance(e, C)]; an exception of another class goes on up. *)
Definition try_except {A} (body : M A) (catches : PyExc -> bool)
  (handler : PyExc -> M A) : M A :=
  fun t =>
    match body t with
    | (Val a, t') => (Val a, t')
    | (Raise e, t') => if catches e then handler e t' else (Raise e, t')
    end.

Declare Scope py_scope.
Delimit Scope py_scope with py.
Notation "x <- m ;; k" := (bind m (fun x => k))
  (at level 61, m at next level, right associativity) : py_scope.
Notation "m ;; k" := (bind m (fun _ => k))
  (at level 61, right associativity) : py_scope.
Open Scope py_scope.

(** [v.get(k)] on a value: only dicts have the method. *)
Definition py_get (v : PyVal) (k : string) (default : PyVal) : M PyVal :=
  match v with
  | PDict d => ret (Py.get_default d k default)
  | _ => raise (mkExc AttributeError
                  ("'" ++ Py.type_name v ++ "' object has no attribute 'get'"))
  end.

Definition logger_info (fmt : string) (args : list PyVal) : M unit :=
  emit (EvLog INFO fmt args None).

Definition logger_warning (fmt : string) (args : list PyVal) : M unit :=
  emit (EvLog WARNING fmt args None).

(** [logger.exception(fmt, e)]: the argument is recorded by its
    rendering under [%s]. *)
Definition logger_exception (fmt : string) (e : PyExc) : M unit :=
  emit (EvLog ERROR fmt [PStr (exc_str e)] (Some e)).

Definition flash (message : string) : M unit := emit (EvFlash message).

(** [resp.json()] *)
Definition json (resp : Response) : M PyVal :=
  fun t => (resp_json resp, t).

(** ** The program *)

Definition MENTORPIECE_ENDPOINT : string :=
  "https://api.mentorpiece.org/v1/process-ai-request".

(** The dict literal every [return] of [call_llm] builds. *)
Definition result (ok : bool) (text : PyVal) (raw : string) (status_code : PyVal)
  : PyVal :=
  PDict [("ok", PBool ok); ("text", text); ("raw", PStr raw);
         ("status_code", status_code)].

(** What [render_template(name, **context)] is called with. *)
Record View : Type := mkView {
  view_template : string;
  view_context : list (string * PyVal)
}.

Definition render_template (name : string) (context : list (string * PyVal))
  : View := mkView name context.

(** [request.form.get(k)] and [request.form.get(k, default)]: the first
    value submitted under the name. *)
Fixpoint form_get (form : list (string * string)) (k : string) : option string :=
  match form with
  | [] => None
  | (k', v) :: rest => if k' =? k then Some v else form_get rest k
  end.

(** [v == s] for a form value [v] that may be [None] *)
Definition form_value_eqb (v : option string) (s : string) : bool :=
  match v with
  | Some v' => v' =? s
  | None => false
  end.

Definition form_get_default (form : list (string * string)) (k default : string)
  : string :=
  match form_get form k with
  | Some v => v
  | None => default
  end.

Section Program.

(** The builtin [repr], which [str] falls back to on everything that
    is not a string.  It is taken to return: a value whose [repr]
    raises (an integer beyond the digit limit of the interpreter) is
    outside the model. *)
Variable py_repr : PyVal -> string.

(** The transport behind [requests.post]: given what has happened so
    far and the request, a response or a raised exception. *)
Variable transport : Trace -> HttpRequest -> Res Response.

(** [str(v)]; also what an f-string field [{v}] renders. *)
Definition py_str (v : PyVal) : string :=
  match v with
  | PStr s => s
  | _ => py_repr v
  end.

Definition requests_post (url : string) (json : PyVal)
  (headers : list (string * string)) (timeout : Z) : M Response :=
  fun t =>
    let req := mkRequest url json headers timeout in
    (transport t req, (t ++ [EvPost req])%list).

(** Lines 61-66: the loop that fills [prompt_parts]. *)
Definition prompt_parts (messages : list PyVal) : list string :=
  fold_left
    (fun prompt_parts m =>
       match m with
       | PDict d =>
           match Py.lookup "content" d with
           | Some content => (prompt_parts ++ [py_str content])%list
           | None => (prompt_parts ++ [py_str m])%list
           end
       | _ => (prompt_parts ++ [py_str m])%list
       end)
    messages [].

Definition call_llm (model_name : string) (messages : list PyVal) : M PyVal :=
  let prompt := Str.join Str.nl (prompt_parts messages) in
  let payload := PDict [("model_name", PStr model_name); ("prompt", PStr prompt)] in
  let headers := [("Content-Type", "application/json")] in
  try_except
    (logger_info "Calling Mentorpiece model=%s" [PStr model_name] ;;
     resp <- requests_post MENTORPIECE_ENDPOINT payload headers 20 ;;
     let raw := resp_text resp in
     let status := resp_status_code resp in
     if negb (status =? 200)%Z then
       logger_warning "Mentorpiece returned HTTP %s" [PInt status] ;;
       text <- try_except
                 (j <- json resp ;;
                  a <- py_get j "response" PNone ;;
                  if Py.truthy a then ret a
                  else
                    b <- py_get j "message" PNone ;;
                    ret (Py.or_else b (PStr raw)))
                 is_Exception
                 (fun _ => ret (PStr raw)) ;;
       ret (result false text raw (PInt status))
     else
       try_except
         (j <- json resp ;;
          text <- (if Py.isinstance_dict j then py_get j "response" PNone
                   else ret PNone) ;;
          let text := if negb (Py.truthy text) then PStr (py_str j) else text in
          ret (result true text raw (PInt status)))
         is_ValueError
         (fun _ => ret (result true (PStr raw) raw (PInt status))))
    is_RequestException
    (fun e =>
       logger_exception "Network error calling Mentorpiece: %s" e ;;
       ret (result false (PStr (exc_str e)) "" PNone)).

(** [d.get(k, default) if d else default], the way [process] reads a
    field of an adapter result. *)
Definition field_of (d : PyVal) (k : string) (default : PyVal) : M PyVal :=
  if Py.truthy d then py_get d k default else ret default.

Definition process (form : list (string * string)) : M View :=
  let source_text := Str.strip (form_get_default form "source_text" "") in
  let language := form_get_default form "language" "English" in
  let action := form_get form "action" in
  if negb (Py.truthy (PStr source_text)) then
    flash "Пожалуйста, введите исходный текст для перевода." ;;
    ret (render_template "index.html" [])
  else
    let translate_prompt := "Переведи на " ++ language ++ ": " ++ source_text in
    trans_resp <- call_llm "Qwen/Qwen3-VL-30B-A3B-Instruct"
                    [PDict [("role", PStr "user"); ("content", PStr translate_prompt)]] ;;
    translation <- field_of trans_resp "text" PNone ;;
    translation_ok <- field_of trans_resp "ok" (PBool false) ;;
    judged <-
      (if form_value_eqb action "judge" then
         let judge_prompt :=
           "Оцени качество перевода от 1 до 10 и коротко аргументируй." ++ Str.nl
           ++ "Оригинал: " ++ source_text ++ Str.nl ++ "Перевод: "
           ++ py_str (Py.or_else translation (PStr "[нет перевода]")) in
         judge_resp <- call_llm "claude-sonnet-4-5-20250929"
                         [PDict [("role", PStr "user"); ("content", PStr judge_prompt)]] ;;
         judge_text <- field_of judge_resp "text" PNone ;;
         judge_ok <- field_of judge_resp "ok" (PBool false) ;;
         judge_raw <- field_of judge_resp "raw" PNone ;;
         ret (judge_text, judge_ok, judge_raw)
       else ret (PNone, PBool false, PNone)) ;;
    let '(judge_text, judge_ok, judge_raw) := judged in
    translation_raw <- field_of trans_resp "raw" PNone ;;
    ret (render_template "index.html"
           [("source_text", PStr source_text);
            ("language", PStr language);
            ("translation", translation);
            ("translation_ok", translation_ok);
            ("translation_raw", translation_raw);
            ("judge_text", judge_text);
            ("judge_ok", judge_ok);
            ("judge_raw", judge_raw)]).

End Program.

(** [GET /]: the form, with nothing filled in. *)
Definition index : M View := ret (render_template "index.html" []).

(** ** Vocabulary for the statements *)

(** A field of a result dict. *)
Definition field (r : PyVal) (k : string) : PyVal :=
  match r with
  | PDict d => Py.get_default d k PNone
  | _ => PNone
  end.


(** The INFO record [call_llm] logs before it posts. *)
Definition call_log (model_name : string) : Event :=
  EvLog INFO "Calling Mentorpiece model=%s" [PStr model_name] None.

(** The request a call carrying this prompt hands to the transport. *)
Definition request_for (model_name prompt : string) : HttpRequest :=
  mkRequest MENTORPIECE_ENDPOINT
    (PDict [("model_name", PStr model_name); ("prompt", PStr prompt)])
    [("Content-Type", "application/json")] 20.

(** The transport honours the contract of [requests]: [post] raises
    only [RequestException]s, and [Response.json] raises only
    [ValueError]s. *)
Definition expected_outcome (o : Res Response) : bool :=
  match o with
  | Raise e => is_RequestException e
  | Val resp =>
      match resp_json resp with
      | Raise e => is_ValueError e
      | Val _ => true
      end
  end.

(** A status code as the result dict shows it: an integer or [None]. *)
Definition is_status (v : PyVal) : bool :=
  match v with
  | PNone | PInt _ => true
  | _ => false
  end.

Section Vocabulary.

Variable py_repr : PyVal -> string.
Variable transport : Trace -> HttpRequest -> Res Response.

(** The prompt as the specification words it: the content of a message
    dict, or the entry itself when it is no dict with a ["content"] key,
    each as a string... *)
Definition message_text (m : PyVal) : string :=
  match m with
  | PDict d =>
      match Py.lookup "content" d with
      | Some content => py_str py_repr content
      | None => py_str py_repr m
      end
  | _ => py_str py_repr m
  end.

(** ...joined by newlines in input order. *)
Definition spec_prompt (messages : list PyVal) : string :=
  String.concat Str.nl (map message_text messages).

(** What the transport answers to the call [call_llm model_name messages]
    made when the trace is [t]. *)
Definition exchange (model_name : string) (messages : list PyVal) (t : Trace)
  : Res Response :=
  transport (t ++ [call_log model_name])%list
    (request_for model_name (Str.join Str.nl (prompt_parts py_repr messages))).

(** The prompt [call_llm] builds from its messages. *)
Definition built_prompt (messages : list PyVal) : string :=
  Str.join Str.nl (prompt_parts py_repr messages).

(** The trace after a call that logged nothing once it had posted. *)
Definition plain_trace (model_name : string) (messages : list PyVal) (t : Trace)
  : Trace :=
  (t ++ [call_log model_name;
         EvPost (request_for model_name (built_prompt messages))])%list.

(** The trace after a call that got a response with an error status. *)
Definition error_trace (model_name : string) (messages : list PyVal) (t : Trace)
  (resp : Response) : Trace :=
  (t ++ [call_log model_name;
         EvPost (request_for model_name (built_prompt messages));
         EvLog WARNING "Mentorpiece returned HTTP %s" [PInt (resp_status_code resp)]
           None])%list.

(** The message list [process] hands to the adapter. *)
Definition user_message (content : string) : list PyVal :=
  [PDict [("role", PStr "user"); ("content", PStr content)]].

(** The judge prompt of [process] around what it shows as translation. *)
Definition judge_prompt (source_text shown : string) : string :=
  "Оцени качество перевода от 1 до 10 и коротко аргументируй." ++ Str.nl
  ++ "Оригинал: " ++ source_text ++ Str.nl ++ "Перевод: " ++ shown.

End Vocabulary.

(** ** Test doubles *)

Module Mock.

(** A stand-in for [repr] to run examples with.  It prints [None],
    booleans, integers, lists and dicts as CPython does, and a string
    between single quotes without escaping, which is CPython's output
    for strings that hold no quote, backslash or unprintable character.
    Floats are beyond it (the shortest round-tripping decimal is not
    computed) and show as a marker; the examples use none. *)
Fixpoint repr (v : PyVal) : string :=
  match v with
  | PNone => "None"
  | PBool b => if b then "True" else "False"
  | PInt z => NilZero.string_of_int (Z.to_int z)
  | PFloat _ => "<float>"
  | PStr s => "'" ++ s ++ "'"
  | PList l => "[" ++ String.concat ", " (map repr l) ++ "]"
  | PDict d =>
      "{" ++ String.concat ", "
               (map (fun kv : string * PyVal =>
                       let (k, x) := kv in "'" ++ k ++ "': " ++ repr x) d)
          ++ "}"
  end.

(** A transport that answers every request with the same response. *)
Definition replies (resp : Response) : Trace -> HttpRequest -> Res Response :=
  fun _ _ => Val resp.

(** A transport on which every request fails with the same exception. *)
Definition fails (e : PyExc) : Trace -> HttpRequest -> Res Response :=
  fun _ _ => Raise e.

(** A JSON object with one string member, as text. *)
Definition json_object1 (k v : string) : string :=
  "{" ++ Str.dquote ++ k ++ Str.dquote ++ ": " ++ Str.dquote ++ v ++ Str.dquote ++ "}".

Definition decode_error : PyExc :=
  mkExc RequestsJSONDecodeError "Expecting value: line 1 column 1 (char 0)".

Definition read_timeout : PyExc :=
  mkExc RequestException
    "HTTPSConnectionPool(host='api.mentorpiece.org', port=443): Read timed out. (read timeout=20)".

(** 200 with body [{"response": "Bonjour"}] *)
Definition ok_bonjour : Response :=
  mkResponse (json_object1 "response" "Bonjour") 200
    (Val (PDict [("response", PStr "Bonjour")])).

(** 200 with the non-JSON body [plain text] *)
Definition ok_plain_text : Response :=
  mkResponse "plain text" 200 (Raise decode_error).

(** 200 with body [{"result": "Bonjour"}]: JSON, but no "response" *)
Definition ok_other_shape : Response :=
  mkResponse (json_object1 "result" "Bonjour") 200
    (Val (PDict [("result", PStr "Bonjour")])).

(** 200 with body [{"response": 42}] *)
Definition ok_number : Response :=
  mkResponse ("{" ++ Str.dquote ++ "response" ++ Str.dquote ++ ": 42}") 200
    (Val (PDict [("response", PInt 42)])).

(** 500 with body [{"message": "overloaded"}] *)
Definition err_overloaded : Response :=
  mkResponse (json_object1 "message" "overloaded") 500
    (Val (PDict [("message", PStr "overloaded")])).


(** 502 with an empty body *)
Definition err_empty_body : Response :=
  mkResponse "" 502 (Raise decode_error).

(** The two submissions of the end-to-end scenario. *)
Definition form_translate : list (string * string) :=
  [("source_text", "Hello"); ("language", "French"); ("action", "translate")].

Definition form_judge : list (string * string) :=
  [("source_text", "Hello"); ("language", "French"); ("action", "judge")].







(** An exception outside the contract of [requests]. *)
Definition broken : PyExc := mkExc (OtherException "RuntimeError") "boom".



(** A submission with a blank source text and no language. *)
Definition form_blank : list (string * string) :=
  [("source_text", "   "); ("action", "judge")].

End Mock.

(** * Facts *)

(** ** The test doubles behave *)

Example strip_hello : Str.strip "  Hello " = "Hello".
Proof. reflexivity. Qed.

Example strip_cyrillic :
  Str.strip (Str.nl ++ "Привет мир" ++ Str.chr 194 ++ Str.chr 160) = "Привет мир".
Proof. reflexivity. Qed.

Example strip_blank : Str.strip "   " = "".
Proof. reflexivity. Qed.

Example repr_nested :
  Mock.repr (PDict [("a", PInt (-3)); ("b", PList [PNone; PBool true; PStr "x"])])
  = "{'a': -3, 'b': [None, True, 'x']}".
Proof. reflexivity. Qed.

(** The spec's first four simulated exchanges, run. *)
Example run_bonjour :
  fst (call_llm Mock.repr (Mock.replies Mock.ok_bonjour) "m" [PStr "hi"] [])
  = Val (result true (PStr "Bonjour") (Mock.json_object1 "response" "Bonjour") (PInt 200)).
Proof. reflexivity. Qed.

Example run_plain_text :
  fst (call_llm Mock.repr (Mock.replies Mock.ok_plain_text) "m" [PStr "hi"] [])
  = Val (result true (PStr "plain text") "plain text" (PInt 200)).
Proof. reflexivity. Qed.

Example run_overloaded :
  fst (call_llm Mock.repr (Mock.replies Mock.err_overloaded) "m" [PStr "hi"] [])
  = Val (result false (PStr "overloaded") (Mock.json_object1 "message" "overloaded")
           (PInt 500)).
Proof. reflexivity. Qed.

Example run_internal_error :
  fst (call_llm Mock.repr
         (Mock.replies (mkResponse "Internal Error" 500 (Raise Mock.decode_error)))
         "m" [PStr "hi"] [])
  = Val (result false (PStr "Internal Error") "Internal Error" (PInt 500)).
Proof. reflexivity. Qed.

Example run_other_shape :
  field (match fst (call_llm Mock.repr (Mock.replies Mock.ok_other_shape) "m" [] []) with
         | Val r => r
         | Raise _ => PNone
         end) "text"
  = PStr "{'result': 'Bonjour'}".
Proof. reflexivity. Qed.

(** ** Traces *)

Lemma posts_app (t1 t2 : Trace) :
  posts (t1 ++ t2)%list = (posts t1 ++ posts t2)%list.
Proof.
  induction t1 as [|ev t1 IH]; simpl; [reflexivity|].
  destruct ev; simpl; rewrite IH; reflexivity.
Qed.

Lemma snoc2 {A} (t : list A) (a b : A) : ((t ++ [a]) ++ [b] = t ++ [a; b])%list.
Proof. rewrite <- app_assoc. reflexivity. Qed.

Lemma snoc3 {A} (t : list A) (a b c : A) :
  (((t ++ [a]) ++ [b]) ++ [c] = t ++ [a; b; c])%list.
Proof. rewrite <- !app_assoc. reflexivity. Qed.

(** ** The loop that builds the prompt *)

Section PromptFacts.

Variable py_repr : PyVal -> string.




Lemma spec_prompt_cons (m m' : PyVal) (ms : list PyVal) :
  spec_prompt py_repr (m :: m' :: ms)
  = message_text py_repr m ++ Str.nl ++ spec_prompt py_repr (m' :: ms).
Proof. reflexivity. Qed.

End PromptFacts.

(** ** One run of the adapter, path by path *)

Section AdapterFacts.

Variable py_repr : PyVal -> string.
Variable transport : Trace -> HttpRequest -> Res Response.

Lemma not_Exception_not_RequestException e :
  is_Exception e = false -> is_RequestException e = false.
Proof.
  unfold is_Exception, is_RequestException.
  destruct (exc_class e); congruence.
Qed.

Lemma not_Exception_not_ValueError e :
  is_Exception e = false -> is_ValueError e = false.
Proof.
  unfold is_Exception, is_ValueError.
  destruct (exc_class e); congruence.
Qed.

Ltac enter H :=
  unfold exchange, request_for, call_log in H;
  unfold call_llm, try_except, bind, logger_info, logger_warning,
    logger_exception, emit, requests_post, json;
  rewrite H; cbv beta iota zeta.

(** The transport raises a [RequestException]: the handler of line 105
    turns it into a result. *)
Lemma run_transport_caught model messages t e :
  exchange py_repr transport model messages t = Raise e ->
  is_RequestException e = true ->
  call_llm py_repr transport model messages t
  = (Val (result false (PStr (exc_str e)) "" PNone),
     (t ++ [call_log model;
            EvPost (request_for model (built_prompt py_repr messages));
            EvLog ERROR "Network error calling Mentorpiece: %s" [PStr (exc_str e)]
              (Some e)])%list).
Proof.
  intros H He. enter H. rewrite He. unfold ret. rewrite snoc3. reflexivity.
Qed.

(** The transport raises anything else: no handler matches. *)
Lemma run_transport_escapes model messages t e :
  exchange py_repr transport model messages t = Raise e ->
  is_RequestException e = false ->
  call_llm py_repr transport model messages t
  = (Raise e,
     (t ++ [call_log model; EvPost (request_for model (built_prompt py_repr messages))])%list).
Proof.
  intros H He. enter H. rewrite He. rewrite snoc2. reflexivity.
Qed.

(** Status other than 200, body parsed to a dict: the [or] chain of
    line 87. *)
Lemma run_error_status_dict model messages t resp d :
  exchange py_repr transport model messages t = Val resp ->
  resp_status_code resp <> 200%Z ->
  resp_json resp = Val (PDict d) ->
  call_llm py_repr transport model messages t
  = (Val (result false
            (if Py.truthy (Py.get_default d "response" PNone)
             then Py.get_default d "response" PNone
             else Py.or_else (Py.get_default d "message" PNone) (PStr (resp_text resp)))
            (resp_text resp) (PInt (resp_status_code resp))),
     error_trace py_repr model messages t resp).
Proof.
  intros H Hs Hj. unfold error_trace. rewrite <- snoc3.
  enter H. apply Z.eqb_neq in Hs. rewrite Hs, Hj. cbv beta iota zeta delta [negb].
  cbv beta iota zeta. unfold py_get, ret. cbv beta iota zeta.
  destruct (Py.truthy (Py.get_default d "response" PNone)); reflexivity.
Qed.

(** Status other than 200, body parsed to something that is no dict:
    [j.get] raises [AttributeError], which line 88 catches. *)
Lemma run_error_status_no_dict model messages t resp j :
  exchange py_repr transport model messages t = Val resp ->
  resp_status_code resp <> 200%Z ->
  resp_json resp = Val j ->
  Py.isinstance_dict j = false ->
  call_llm py_repr transport model messages t
  = (Val (result false (PStr (resp_text resp)) (resp_text resp)
            (PInt (resp_status_code resp))),
     error_trace py_repr model messages t resp).
Proof.
  intros H Hs Hj Hd. unfold error_trace. rewrite <- snoc3.
  enter H. apply Z.eqb_neq in Hs. rewrite Hs, Hj. cbv beta iota zeta delta [negb].
  cbv beta iota zeta.
  destruct j; try discriminate Hd; reflexivity.
Qed.

(** Status other than 200, [json()] raises an [Exception]: line 88
    catches it, whatever its class. *)
Lemma run_error_status_unparsed model messages t resp e :
  exchange py_repr transport model messages t = Val resp ->
  resp_status_code resp <> 200%Z ->
  resp_json resp = Raise e ->
  is_Exception e = true ->
  call_llm py_repr transport model messages t
  = (Val (result false (PStr (resp_text resp)) (resp_text resp)
            (PInt (resp_status_code resp))),
     error_trace py_repr model messages t resp).
Proof.
  intros H Hs Hj He. unfold error_trace. rewrite <- snoc3.
  enter H. apply Z.eqb_neq in Hs. rewrite Hs, Hj. cbv beta iota zeta delta [negb].
  cbv beta iota zeta. rewrite He. reflexivity.
Qed.

(** Status other than 200, [json()] raises something that is no
    [Exception]: neither line 88 nor line 105 catches it. *)
Lemma run_error_status_escapes model messages t resp e :
  exchange py_repr transport model messages t = Val resp ->
  resp_status_code resp <> 200%Z ->
  resp_json resp = Raise e ->
  is_Exception e = false ->
  call_llm py_repr transport model messages t
  = (Raise e, error_trace py_repr model messages t resp).
Proof.
  intros H Hs Hj He. unfold error_trace. rewrite <- snoc3.
  enter H. apply Z.eqb_neq in Hs. rewrite Hs, Hj. cbv beta iota zeta delta [negb].
  cbv beta iota zeta. rewrite He. cbv beta iota zeta.
  rewrite (not_Exception_not_RequestException _ He). reflexivity.
Qed.

(** Status 200, body parsed: lines 96-100. *)
Lemma run_ok_status_parsed model messages t resp j :
  exchange py_repr transport model messages t = Val resp ->
  resp_status_code resp = 200%Z ->
  resp_json resp = Val j ->
  call_llm py_repr transport model messages t
  = (Val (result true
            (if Py.truthy (field j "response") then field j "response"
             else PStr (py_str py_repr j))
            (resp_text resp) (PInt 200)),
     plain_trace py_repr model messages t).
Proof.
  intros H Hs Hj. unfold plain_trace. rewrite <- snoc2.
  enter H. rewrite Hs, Hj, Z.eqb_refl. cbv beta iota zeta delta [negb]. cbv beta iota zeta.
  destruct j; simpl; try reflexivity.
  unfold ret. destruct (Py.truthy (Py.get_default d "response" PNone)); reflexivity.
Qed.

(** Status 200, [json()] raises a [ValueError]: line 101. *)
Lemma run_ok_status_value_error model messages t resp e :
  exchange py_repr transport model messages t = Val resp ->
  resp_status_code resp = 200%Z ->
  resp_json resp = Raise e ->
  is_ValueError e = true ->
  call_llm py_repr transport model messages t
  = (Val (result true (PStr (resp_text resp)) (resp_text resp) (PInt 200)),
     plain_trace py_repr model messages t).
Proof.
  intros H Hs Hj He. unfold plain_trace. rewrite <- snoc2.
  enter H. rewrite Hs, Hj, Z.eqb_refl. cbv beta iota zeta delta [negb].
  cbv beta iota zeta. rewrite He. reflexivity.
Qed.

(** Status 200, [json()] raises a [RequestException] that is no
    [ValueError]: line 101 lets it pass and line 105 catches it. *)
Lemma run_ok_status_request_error model messages t resp e :
  exchange py_repr transport model messages t = Val resp ->
  resp_status_code resp = 200%Z ->
  resp_json resp = Raise e ->
  is_ValueError e = false ->
  is_RequestException e = true ->
  call_llm py_repr transport model messages t
  = (Val (result false (PStr (exc_str e)) "" PNone),
     (plain_trace py_repr model messages t
      ++ [EvLog ERROR "Network error calling Mentorpiece: %s" [PStr (exc_str e)]
            (Some e)])%list).
Proof.
  intros H Hs Hj He He'. unfold plain_trace. rewrite <- snoc2.
  enter H. rewrite Hs, Hj, Z.eqb_refl. cbv beta iota zeta delta [negb].
  cbv beta iota zeta. rewrite He. cbv beta iota zeta. rewrite He'. reflexivity.
Qed.

(** Status 200, [json()] raises anything else: no handler matches. *)
Lemma run_ok_status_escapes model messages t resp e :
  exchange py_repr transport model messages t = Val resp ->
  resp_status_code resp = 200%Z ->
  resp_json resp = Raise e ->
  is_ValueError e = false ->
  is_RequestException e = false ->
  call_llm py_repr transport model messages t
  = (Raise e, plain_trace py_repr model messages t).
Proof.
  intros H Hs Hj He He'. unfold plain_trace. rewrite <- snoc2.
  enter H. rewrite Hs, Hj, Z.eqb_refl. cbv beta iota zeta delta [negb].
  cbv beta iota zeta. rewrite He. cbv beta iota zeta. rewrite He'. reflexivity.
Qed.

End AdapterFacts.

(** Case analysis on the path a call takes: rewrites the call, in the
    goal, by what it evaluates to on each of the ten paths. *)
Ltac by_path py_repr transport model messages t :=
  let resp := fresh "resp" in
  let e := fresh "e" in
  let j := fresh "j" in
  let Hx := fresh "Hx" in
  let Hs := fresh "Hs" in
  let Hj := fresh "Hj" in
  let Hv := fresh "Hv" in
  let Hr := fresh "Hr" in
  let Hd := fresh "Hd" in
  let He := fresh "He" in
  destruct (exchange py_repr transport model messages t) as [resp|e] eqn:Hx;
  [ destruct (Z.eq_dec (resp_status_code resp) 200) as [Hs|Hs];
    [ destruct (resp_json resp) as [j|e] eqn:Hj;
      [ rewrite (run_ok_status_parsed _ _ _ _ _ _ _ Hx Hs Hj)
      | destruct (is_ValueError e) eqn:Hv;
        [ rewrite (run_ok_status_value_error _ _ _ _ _ _ _ Hx Hs Hj Hv)
        | destruct (is_RequestException e) eqn:Hr;
          [ rewrite (run_ok_status_request_error _ _ _ _ _ _ _ Hx Hs Hj Hv Hr)
          | rewrite (run_ok_status_escapes _ _ _ _ _ _ _ Hx Hs Hj Hv Hr) ] ] ]
    | destruct (resp_json resp) as [j|e] eqn:Hj;
      [ destruct (Py.isinstance_dict j) eqn:Hd;
        [ destruct j; try discriminate Hd;
          rewrite (run_error_status_dict _ _ _ _ _ _ _ Hx Hs Hj)
        | rewrite (run_error_status_no_dict _ _ _ _ _ _ _ Hx Hs Hj Hd) ]
      | destruct (is_Exception e) eqn:He;
        [ rewrite (run_error_status_unparsed _ _ _ _ _ _ _ Hx Hs Hj He)
        | rewrite (run_error_status_escapes _ _ _ _ _ _ _ Hx Hs Hj He) ] ] ]
  | destruct (is_RequestException e) eqn:Hr;
    [ rewrite (run_transport_caught _ _ _ _ _ _ Hx Hr)
    | rewrite (run_transport_escapes _ _ _ _ _ _ Hx Hr) ] ].

Lemma falsy_str (s : string) : Py.truthy (PStr s) = false -> s = "".
Proof.
  simpl. intro H. apply negb_false_iff in H. apply String.eqb_eq in H. exact H.
Qed.

Section CallFacts.

Variable py_repr : PyVal -> string.
Variable transport : Trace -> HttpRequest -> Res Response.

(** Whatever happens, a call posts once: the request of its model and
    prompt. *)
Lemma call_llm_posts model messages t :
  posts (snd (call_llm py_repr transport model messages t))
  = (posts t
     ++ [request_for model (Str.join Str.nl (prompt_parts py_repr messages))])%list.
Proof.
  by_path py_repr transport model messages t;
    simpl snd; unfold plain_trace, error_trace; rewrite ?posts_app; simpl posts;
    rewrite ?app_nil_r; reflexivity.
Qed.

(** On a transport that honours the contract a call returns a result
    dict; its text is not [None], and is the empty string if it is
    falsy at all. *)
Lemma call_llm_total model messages t :
  expected_outcome (exchange py_repr transport model messages t) = true ->
  exists ok text raw status t',
    call_llm py_repr transport model messages t
    = (Val (result ok text raw status), t')
    /\ is_status status = true
    /\ text <> PNone
    /\ (Py.truthy text = false -> text = PStr "").
Proof.
  intro Hc.
  by_path py_repr transport model messages t; simpl in Hc;
    try (rewrite Hj in Hc); try congruence;
    try (match goal with
         | He : is_Exception ?e = false |- _ =>
             rewrite (not_Exception_not_ValueError _ He) in Hc; discriminate Hc
         end);
    do 5 eexists; (split; [reflexivity|]); (split; [reflexivity|]).
  - destruct (Py.truthy (field j "response")) eqn:Ht.
    + split; [intro E; rewrite E in Ht; discriminate | congruence].
    + split; [discriminate | intro H; apply falsy_str in H; rewrite H; reflexivity].
  - split; [discriminate | intro H; apply falsy_str in H; rewrite H; reflexivity].
  - destruct (Py.truthy (Py.get_default d "response" PNone)) eqn:Ht.
    + split; [intro E; rewrite E in Ht; discriminate | congruence].
    + unfold Py.or_else.
      destruct (Py.truthy (Py.get_default d "message" PNone)) eqn:Ht'.
      * split; [intro E; rewrite E in Ht'; discriminate | congruence].
      * split; [discriminate | intro H; apply falsy_str in H; rewrite H; reflexivity].
  - split; [discriminate | intro H; apply falsy_str in H; rewrite H; reflexivity].
  - split; [discriminate | intro H; apply falsy_str in H; rewrite H; reflexivity].
  - split; [discriminate | intro H; apply falsy_str in H; rewrite H; reflexivity].
Qed.

(** A response with an error status always comes back as a result,
    whatever its body. *)
Lemma error_status_shape model messages t resp :
  exchange py_repr transport model messages t = Val resp ->
  resp_status_code resp <> 200%Z ->
  (forall e, resp_json resp = Raise e -> is_Exception e = true) ->
  exists text,
    fst (call_llm py_repr transport model messages t)
    = Val (result false text (resp_text resp) (PInt (resp_status_code resp))).
Proof.
  intros Hx Hs He.
  destruct (resp_json resp) as [j|e] eqn:Hj;
    [destruct (Py.isinstance_dict j) eqn:Hd; [destruct j; try discriminate Hd|]|].
  - rewrite (run_error_status_dict _ _ _ _ _ _ _ Hx Hs Hj). eexists. reflexivity.
  - rewrite (run_error_status_no_dict _ _ _ _ _ _ _ Hx Hs Hj Hd). eexists. reflexivity.
  - rewrite (run_error_status_unparsed _ _ _ _ _ _ _ Hx Hs Hj (He e eq_refl)).
    eexists. reflexivity.
Qed.

End CallFacts.

(** ** The form handler *)

Section ProcessFacts.

Variable py_repr : PyVal -> string.
Variable transport : Trace -> HttpRequest -> Res Response.

Lemma field_of_trace d k default t : snd (field_of d k default t) = t.
Proof.
  unfold field_of. destruct (Py.truthy d); [|reflexivity].
  destruct d; reflexivity.
Qed.

Lemma field_of_result ok text raw status k default t :
  field_of (result ok text raw status) k default t
  = (Val (Py.get_default
            [("ok", PBool ok); ("text", text); ("raw", PStr raw);
             ("status_code", status)] k default), t).
Proof. reflexivity. Qed.

Lemma snd_bind {A B} (m : M A) (k : A -> M B) (t : Trace) :
  (forall a t', snd (k a t') = t') ->
  snd (bind m k t) = snd (m t).
Proof.
  intro Hk. unfold bind. destruct (m t) as [[a|e] t']; simpl; [apply Hk|reflexivity].
Qed.

Lemma built_prompt_user_message content :
  built_prompt py_repr (user_message content) = content.
Proof. reflexivity. Qed.

Ltac pure_tail :=
  repeat first
    [ apply field_of_trace
    | reflexivity
    | rewrite snd_bind
    | match goal with |- forall _ : _ * _ * _, _ => intros [[? ?] ?] end
    | intro ].

(** A blank submission flashes a message and calls nothing. *)
Lemma process_blank form t :
  Str.strip (form_get_default form "source_text" "") = "" ->
  process py_repr transport form t
  = (Val (render_template "index.html" []),
     (t ++ [EvFlash "Пожалуйста, введите исходный текст для перевода."])%list).
Proof.
  intro H. unfold process. rewrite H. reflexivity.
Qed.

Lemma process_translate_posts form t :
  Str.strip (form_get_default form "source_text" "") <> "" ->
  form_value_eqb (form_get form "action") "judge" = false ->
  posts (snd (process py_repr transport form t))
  = (posts t
     ++ [request_for "Qwen/Qwen3-VL-30B-A3B-Instruct"
           ("Переведи на " ++ form_get_default form "language" "English" ++ ": "
            ++ Str.strip (form_get_default form "source_text" ""))])%list.
Proof.
  intros Hsrc Hact. unfold process.
  set (src := Str.strip (form_get_default form "source_text" "")) in *.
  assert (Ht : Py.truthy (PStr src) = true).
  { simpl. apply negb_true_iff. apply String.eqb_neq. exact Hsrc. }
  rewrite Ht, Hact. cbv beta iota zeta delta [negb].
  rewrite snd_bind; [apply call_llm_posts|].
  intros trans_resp t1. pure_tail.
Qed.

Lemma process_judge_posts form t ok text raw status t1 :
  Str.strip (form_get_default form "source_text" "") <> "" ->
  form_value_eqb (form_get form "action") "judge" = true ->
  call_llm py_repr transport "Qwen/Qwen3-VL-30B-A3B-Instruct"
    (user_message
       ("Переведи на " ++ form_get_default form "language" "English" ++ ": "
        ++ Str.strip (form_get_default form "source_text" ""))) t
  = (Val (result ok text raw status), t1) ->
  posts (snd (process py_repr transport form t))
  = (posts t
     ++ [request_for "Qwen/Qwen3-VL-30B-A3B-Instruct"
           ("Переведи на " ++ form_get_default form "language" "English" ++ ": "
            ++ Str.strip (form_get_default form "source_text" ""));
         request_for "claude-sonnet-4-5-20250929"
           (judge_prompt (Str.strip (form_get_default form "source_text" ""))
              (if Py.truthy text then py_str py_repr text else "[нет перевода]"))])%list.
Proof.
  intros Hsrc Hact Hcall.
  pose proof (call_llm_posts py_repr transport "Qwen/Qwen3-VL-30B-A3B-Instruct"
                (user_message
                   ("Переведи на " ++ form_get_default form "language" "English"
                    ++ ": " ++ Str.strip (form_get_default form "source_text" ""))) t)
    as Hp1.
  rewrite Hcall in Hp1. simpl snd in Hp1.
  unfold process.
  set (src := Str.strip (form_get_default form "source_text" "")) in *.
  assert (Ht : Py.truthy (PStr src) = true).
  { simpl. apply negb_true_iff. apply String.eqb_neq. exact Hsrc. }
  rewrite Ht, Hact. cbv beta iota zeta delta [negb].
  unfold user_message in Hcall.
  unfold bind at 1. rewrite Hcall.
  unfold bind at 1. rewrite field_of_result.
  unfold bind at 1. rewrite field_of_result.
  rewrite snd_bind; [|pure_tail].
  rewrite snd_bind; [|pure_tail].
  rewrite call_llm_posts, Hp1, <- app_assoc.
  change (Py.get_default
            [("ok", PBool ok); ("text", text); ("raw", PStr raw);
             ("status_code", status)] "text" PNone) with text.
  unfold Py.or_else. destruct (Py.truthy text); reflexivity.
Qed.

End ProcessFacts.



(** * The claims *)

Section Claims.

Variable py_repr : PyVal -> string.
Variable transport : Trace -> HttpRequest -> Res Response.





(** C5.  Whenever the adapter returns a result whose ok is true, the
    HTTP exchange completed and its status was 200; on every transport
    failure and on every completed exchange with another status it
    returns a result whose ok is false.  (In the last case what
    [json()] raises, if it raises, is an [Exception]; an interrupt is
    not caught and no result is returned.) *)
Theorem ok_only_on_status_200 model messages t :
  (forall r t',
      call_llm py_repr transport model messages t = (Val r, t') ->
      field r "ok" = PBool true ->
      exists resp,
        exchange py_repr transport model messages t = Val resp
        /\ resp_status_code resp = 200%Z)
  /\ (forall e,
        exchange py_repr transport model messages t = Raise e ->
        is_RequestException e = true ->
        exists r,
          fst (call_llm py_repr transport model messages t) = Val r
          /\ field r "ok" = PBool false)
  /\ (forall resp,
        exchange py_repr transport model messages t = Val resp ->
        resp_status_code resp <> 200%Z ->
        (forall e, resp_json resp = Raise e -> is_Exception e = true) ->
        exists r,
          fst (call_llm py_repr transport model messages t) = Val r
          /\ field r "ok" = PBool false).
Proof.
  repeat split.
  - intros r t'.
    by_path py_repr transport model messages t; intros E Hok;
      try discriminate E; injection E as <- _; try discriminate Hok;
      eexists; split; try reflexivity; assumption.
  - intros e Hx Hr. rewrite (run_transport_caught _ _ _ _ _ _ Hx Hr).
    eexists. split; reflexivity.
  - intros resp Hx Hs He.
    destruct (error_status_shape py_repr transport _ _ _ _ Hx Hs He)
      as [text Ht].
    rewrite Ht. eexists. split; reflexivity.
Qed.


(** C7.  The submission source_text "Hello", language "French", action
    "translate" makes exactly one request, for the model
    "Qwen/Qwen3-VL-30B-A3B-Instruct" with the prompt "Переведи на French:
    Hello".  With action "judge", once that first call has returned, a
    second request follows, for the model "claude-sonnet-4-5-20250929",
    whose prompt holds the original text and the first call's text, or
    "[нет перевода]" when that text is empty. *)
Theorem process_hello_french t :
  posts (snd (process py_repr transport Mock.form_translate t))
  = (posts t
     ++ [request_for "Qwen/Qwen3-VL-30B-A3B-Instruct" "Переведи на French: Hello"])%list
  /\ (expected_outcome
        (exchange py_repr transport "Qwen/Qwen3-VL-30B-A3B-Instruct"
           (user_message "Переведи на French: Hello") t) = true ->
      exists r1 t1,
        call_llm py_repr transport "Qwen/Qwen3-VL-30B-A3B-Instruct"
          (user_message "Переведи на French: Hello") t = (Val r1, t1)
        /\ posts (snd (process py_repr transport Mock.form_judge t))
           = (posts t
              ++ [request_for "Qwen/Qwen3-VL-30B-A3B-Instruct"
                    "Переведи на French: Hello";
                  request_for "claude-sonnet-4-5-20250929"
                    ("Оцени качество перевода от 1 до 10 и коротко аргументируй."
                     ++ Str.nl ++ "Оригинал: Hello" ++ Str.nl ++ "Перевод: "
                     ++ (if Py.truthy (field r1 "text")
                         then py_str py_repr (field r1 "text")
                         else "[нет перевода]"))])%list).
Proof.
  split.
  - apply (process_translate_posts py_repr transport Mock.form_translate t).
    + discriminate.
    + reflexivity.
  - intro Hc.
    destruct (call_llm_total py_repr transport _ _ _ Hc)
      as (ok & text & raw & status & t1 & Hcall & _).
    exists (result ok text raw status), t1. split; [exact Hcall|].
    apply (process_judge_posts py_repr transport Mock.form_judge t ok text raw
             status t1).
    + discriminate.
    + reflexivity.
    + exact Hcall.
Qed.

(** C8.  Every call makes exactly one HTTP request, on every path: a
    POST to the fixed endpoint, whose JSON body is the model name and the
    built prompt, with the one header Content-Type: application/json (so
    no Authorization header) and a timeout of 20. *)
Theorem call_llm_posts_once model messages t :
  exists req,
    posts (snd (call_llm py_repr transport model messages t))
    = (posts t ++ [req])%list
    /\ req_url req = "https://api.mentorpiece.org/v1/process-ai-request"
    /\ req_json req
       = PDict [("model_name", PStr model);
                ("prompt", PStr (built_prompt py_repr messages))]
    /\ req_headers req = [("Content-Type", "application/json")]
    /\ (forall v, ~ In ("Authorization", v) (req_headers req))
    /\ req_timeout req = 20%Z.
Proof.
  eexists. split; [apply call_llm_posts|].
  repeat split.
  intros v [H|[]]. discriminate H.
Qed.

(** C10, amended.  In the judge flow the judge call is made whatever the
    first call returned, failures included.  Its prompt shows the first
    call's text when that text is non-empty and "[нет перевода]" when
    it is empty, which is the only falsy value the text takes (it is
    never [None]) -- and which a failed call can produce. *)
Theorem judge_call_after_any_result form t :
  Str.strip (form_get_default form "source_text" "") <> "" ->
  form_get form "action" = Some "judge" ->
  expected_outcome
    (exchange py_repr transport "Qwen/Qwen3-VL-30B-A3B-Instruct"
       (user_message
          ("Переведи на " ++ form_get_default form "language" "English" ++ ": "
           ++ Str.strip (form_get_default form "source_text" ""))) t) = true ->
  exists r1 t1,
    call_llm py_repr transport "Qwen/Qwen3-VL-30B-A3B-Instruct"
      (user_message
         ("Переведи на " ++ form_get_default form "language" "English" ++ ": "
          ++ Str.strip (form_get_default form "source_text" ""))) t = (Val r1, t1)
    /\ posts (snd (process py_repr transport form t))
       = (posts t1
          ++ [request_for "claude-sonnet-4-5-20250929"
                (judge_prompt (Str.strip (form_get_default form "source_text" ""))
                   (if Py.truthy (field r1 "text")
                    then py_str py_repr (field r1 "text")
                    else "[нет перевода]"))])%list
    /\ field r1 "text" <> PNone
    /\ (Py.truthy (field r1 "text") = false <-> field r1 "text" = PStr "").
Proof.
  intros Hsrc Hact Hc.
  destruct (call_llm_total py_repr transport _ _ _ Hc)
    as (ok & text & raw & status & t1 & Hcall & _ & Hnone & Hfalsy).
  exists (result ok text raw status), t1. split; [exact Hcall|].
  split; [|split; [exact Hnone|split; [exact Hfalsy|]]].
  - rewrite (process_judge_posts py_repr transport form t ok text raw status t1
               Hsrc); [| rewrite Hact; reflexivity | exact Hcall].
    pose proof (call_llm_posts py_repr transport "Qwen/Qwen3-VL-30B-A3B-Instruct"
                  (user_message
                     ("Переведи на " ++ form_get_default form "language" "English"
                      ++ ": " ++ Str.strip (form_get_default form "source_text" "")))
                  t) as Hp.
    rewrite Hcall in Hp. simpl snd in Hp. rewrite Hp, <- app_assoc. reflexivity.
  - simpl. intro E. rewrite E. reflexivity.
Qed.

End Claims.

(** * The claims at concrete inputs *)








(** C5 at the body [{"response": "Bonjour"}]: ok is true, and the
    exchange was a 200. *)
Lemma ok_only_on_status_200_witness :
  exists resp,
    exchange Mock.repr (Mock.replies Mock.ok_bonjour) "m" [PStr "hi"] [] = Val resp
    /\ resp_status_code resp = 200%Z.
Proof.
  apply (proj1 (ok_only_on_status_200 Mock.repr (Mock.replies Mock.ok_bonjour)
                  "m" [PStr "hi"] [])
           (result true (PStr "Bonjour") (resp_text Mock.ok_bonjour) (PInt 200))
           (plain_trace Mock.repr "m" [PStr "hi"] [])
           eq_refl eq_refl).
Defined.


(** C7, judge flow, when the translation call gets
    [{"response": "Bonjour"}]: two requests, the second showing
    "Bonjour". *)
Lemma process_hello_french_witness :
  expected_outcome
    (exchange Mock.repr (Mock.replies Mock.ok_bonjour)
       "Qwen/Qwen3-VL-30B-A3B-Instruct" (user_message "Переведи на French: Hello") [])
  = true
  /\ posts (snd (process Mock.repr (Mock.replies Mock.ok_bonjour) Mock.form_judge []))
     = [request_for "Qwen/Qwen3-VL-30B-A3B-Instruct" "Переведи на French: Hello";
        request_for "claude-sonnet-4-5-20250929"
          ("Оцени качество перевода от 1 до 10 и коротко аргументируй."
           ++ Str.nl ++ "Оригинал: Hello" ++ Str.nl ++ "Перевод: Bonjour")].
Proof.
  split; [reflexivity|].
  destruct (proj2 (process_hello_french Mock.repr (Mock.replies Mock.ok_bonjour) [])
              eq_refl)
    as (r1 & t1 & Hcall & Hposts).
  injection Hcall as <- _. exact Hposts.
Defined.

(** C8 at a read timeout: the failed call posted once and was not
    retried. *)
Lemma call_llm_posts_once_witness :
  exists req,
    posts (snd (call_llm Mock.repr (Mock.fails Mock.read_timeout) "m" [PStr "hi"] []))
    = [req]
    /\ req_timeout req = 20%Z.
Proof.
  destruct (call_llm_posts_once Mock.repr (Mock.fails Mock.read_timeout)
              "m" [PStr "hi"] [])
    as (req & Hposts & _ & _ & _ & _ & Htimeout).
  exists req. split; [exact Hposts | exact Htimeout].
Defined.

(** C9 fails on the code: a 200 whose body is [{"response": 42}] gives
    a result whose text is the integer 42, not a string. *)
Theorem numeric_response_text_is_no_string :
  fst (call_llm Mock.repr (Mock.replies Mock.ok_number) "m" [PStr "hi"] [])
  = Val (result true (PInt 42) (resp_text Mock.ok_number) (PInt 200))
  /\ Py.isinstance_str (PInt 42) = false.
Proof. split; reflexivity. Qed.

(** C10 as the specification words it fails on an HTTP error with an
    empty body: the translation call fails (ok false, status 502), its
    text is the empty string, and the judge prompt carries the
    placeholder although the call failed. *)
Lemma judge_placeholder_after_failed_call :
  fst (call_llm Mock.repr (Mock.replies Mock.err_empty_body)
         "Qwen/Qwen3-VL-30B-A3B-Instruct" (user_message "Переведи на French: Hello") [])
  = Val (result false (PStr "") "" (PInt 502))
  /\ posts (snd (process Mock.repr (Mock.replies Mock.err_empty_body)
                   Mock.form_judge []))
     = [request_for "Qwen/Qwen3-VL-30B-A3B-Instruct" "Переведи на French: Hello";
        request_for "claude-sonnet-4-5-20250929"
          (judge_prompt "Hello" "[нет перевода]")]
  /\ judge_prompt "Hello" "[нет перевода]" <> judge_prompt "Hello" "".
Proof.
  split; [reflexivity|]. split; [reflexivity|].
  intro H. apply (f_equal String.length) in H. vm_compute in H. discriminate H.
Qed.

(** C10, amended, when the translation call times out: the judge call
    is made and its prompt shows the error text. *)
Lemma judge_call_after_any_result_witness :
  Str.strip (form_get_default Mock.form_judge "source_text" "") <> ""
  /\ form_get Mock.form_judge "action" = Some "judge"
  /\ expected_outcome
       (exchange Mock.repr (Mock.fails Mock.read_timeout)
          "Qwen/Qwen3-VL-30B-A3B-Instruct"
          (user_message "Переведи на French: Hello") []) = true
  /\ posts (snd (process Mock.repr (Mock.fails Mock.read_timeout) Mock.form_judge []))
     = [request_for "Qwen/Qwen3-VL-30B-A3B-Instruct" "Переведи на French: Hello";
        request_for "claude-sonnet-4-5-20250929"
          (judge_prompt "Hello" (exc_str Mock.read_timeout))].
Proof.
  assert (Hsrc : Str.strip (form_get_default Mock.form_judge "source_text" "") <> "")
    by discriminate.
  split; [exact Hsrc|]. split; [reflexivity|]. split; [reflexivity|].
  destruct (judge_call_after_any_result Mock.repr (Mock.fails Mock.read_timeout)
              Mock.form_judge [] Hsrc eq_refl eq_refl)
    as (r1 & t1 & Hcall & Hposts & _).
  injection Hcall as <- <-. exact Hposts.
Defined.

(** * Further properties of the adapter *)



Section AdapterExtras.

Variable py_repr : PyVal -> string.
Variable transport : Trace -> HttpRequest -> Res Response.

(** Every value a call returns is one of the result dicts. *)
Lemma call_llm_shape model messages t r t' :
  call_llm py_repr transport model messages t = (Val r, t') ->
  exists ok text raw status, r = result ok text raw status.
Proof.
  by_path py_repr transport model messages t; intro E;
    try discriminate E; injection E as <- _; do 4 eexists; reflexivity.
Qed.




(** X4.  What a call adds to the trace, on every path: it keeps what
    was there, logs one INFO record naming the model, posts, and then
    logs at most one more record -- a WARNING with the status after a
    response whose status is not 200, an ERROR with the exception after
    a caught [RequestException], nothing after a 200 whose body parsed
    or failed to parse with a [ValueError].  It never posts again. *)
Theorem call_llm_trace model messages t :
  exists tail,
    snd (call_llm py_repr transport model messages t)
    = (t ++ [call_log model;
             EvPost (request_for model (built_prompt py_repr messages))]
         ++ tail)%list
    /\ (length tail <= 1)%nat
    /\ posts tail = []
    /\ (forall resp,
          exchange py_repr transport model messages t = Val resp ->
          resp_status_code resp <> 200%Z ->
          tail = [EvLog WARNING "Mentorpiece returned HTTP %s"
                    [PInt (resp_status_code resp)] None])
    /\ (forall e,
          exchange py_repr transport model messages t = Raise e ->
          is_RequestException e = true ->
          tail = [EvLog ERROR "Network error calling Mentorpiece: %s"
                    [PStr (exc_str e)] (Some e)])
    /\ (forall resp,
          exchange py_repr transport model messages t = Val resp ->
          resp_status_code resp = 200%Z ->
          (forall e, resp_json resp = Raise e -> is_ValueError e = true) ->
          tail = []).
Proof.
  by_path py_repr transport model messages t; simpl snd;
    unfold plain_trace, error_trace.
  - exists []. split; [reflexivity|]. split; [simpl; lia|]. split; [reflexivity|].
    repeat split; intros; try reflexivity; try discriminate;
      match goal with
      | E : Val _ = Val ?r, H : resp_status_code ?r <> _ |- _ =>
          injection E as <-; contradiction
      end.
  - exists []. split; [reflexivity|]. split; [simpl; lia|]. split; [reflexivity|].
    repeat split; intros; try reflexivity; try discriminate;
      match goal with
      | E : Val _ = Val ?r, H : resp_status_code ?r <> _ |- _ =>
          injection E as <-; contradiction
      end.
  - eexists. split; [rewrite <- app_assoc; reflexivity|].
    split; [simpl; lia|]. split; [reflexivity|].
    repeat split; intros; try discriminate.
    + match goal with
      | E : Val _ = Val ?r, H : resp_status_code ?r <> _ |- _ =>
          injection E as <-; contradiction
      end.
    + match goal with
      | E : Val _ = Val ?r, H : forall e, resp_json ?r = Raise e -> _ |- _ =>
          injection E as <-; specialize (H _ Hj); congruence
      end.
  - exists []. split; [reflexivity|]. split; [simpl; lia|]. split; [reflexivity|].
    repeat split; intros; try reflexivity; try discriminate;
      match goal with
      | E : Val _ = Val ?r, H : resp_status_code ?r <> _ |- _ =>
          injection E as <-; contradiction
      end.
  - eexists. split; [reflexivity|]. split; [simpl; lia|]. split; [reflexivity|].
    repeat split; intros; try discriminate.
    + match goal with E : Val _ = Val _ |- _ => injection E as <- end. reflexivity.
    + match goal with E : Val _ = Val _ |- _ => injection E as <- end. contradiction.
  - eexists. split; [reflexivity|]. split; [simpl; lia|]. split; [reflexivity|].
    repeat split; intros; try discriminate.
    + match goal with E : Val _ = Val _ |- _ => injection E as <- end. reflexivity.
    + match goal with E : Val _ = Val _ |- _ => injection E as <- end. contradiction.
  - eexists. split; [reflexivity|]. split; [simpl; lia|]. split; [reflexivity|].
    repeat split; intros; try discriminate.
    + match goal with E : Val _ = Val _ |- _ => injection E as <- end. reflexivity.
    + match goal with E : Val _ = Val _ |- _ => injection E as <- end. contradiction.
  - eexists. split; [reflexivity|]. split; [simpl; lia|]. split; [reflexivity|].
    repeat split; intros; try discriminate.
    + match goal with E : Val _ = Val _ |- _ => injection E as <- end. reflexivity.
    + match goal with E : Val _ = Val _ |- _ => injection E as <- end. contradiction.
  - eexists. split; [reflexivity|]. split; [simpl; lia|]. split; [reflexivity|].
    repeat split; intros; try discriminate.
    match goal with E : Raise _ = Raise _ |- _ => injection E as <- end. reflexivity.
  - exists []. split; [reflexivity|]. split; [simpl; lia|]. split; [reflexivity|].
    repeat split; intros; try discriminate.
    match goal with E : Raise _ = Raise _ |- _ => injection E as <- end. congruence.
Qed.

(** X5.  The text of a returned result is a string as soon as the
    server keeps to strings: whenever the body parses to a dict, every
    non-empty value under "response" or "message" is a string. *)
Theorem text_is_string_for_string_fields model messages t r t' :
  call_llm py_repr transport model messages t = (Val r, t') ->
  (forall resp d k v,
      exchange py_repr transport model messages t = Val resp ->
      resp_json resp = Val (PDict d) ->
      k = "response" \/ k = "message" ->
      Py.lookup k d = Some v ->
      Py.truthy v = true ->
      Py.isinstance_str v = true) ->
  Py.isinstance_str (field r "text") = true.
Proof.
  assert (Hget : forall d k,
             Py.truthy (Py.get_default d k PNone) = true ->
             Py.lookup k d = Some (Py.get_default d k PNone)).
  { intros d k. unfold Py.get_default. destruct (Py.lookup k d); [reflexivity|].
    discriminate. }
  by_path py_repr transport model messages t; intros E Hs';
    try discriminate E; injection E as <- _; try reflexivity.
  - change (field (result true
                     (if Py.truthy (field j "response") then field j "response"
                      else PStr (py_str py_repr j))
                     (resp_text resp) (PInt 200)) "text")
      with (if Py.truthy (field j "response") then field j "response"
            else PStr (py_str py_repr j)).
    destruct (Py.truthy (field j "response")) eqn:Ht; [|reflexivity].
    destruct j; try discriminate Ht. simpl in *.
    apply (Hs' resp d "response" _ eq_refl Hj (or_introl eq_refl) (Hget _ _ Ht) Ht).
  - change (Py.isinstance_str
              (if Py.truthy (Py.get_default d "response" PNone)
               then Py.get_default d "response" PNone
               else Py.or_else (Py.get_default d "message" PNone)
                      (PStr (resp_text resp))) = true).
    destruct (Py.truthy (Py.get_default d "response" PNone)) eqn:Ht.
    + apply (Hs' resp d "response" _ eq_refl Hj (or_introl eq_refl) (Hget _ _ Ht) Ht).
    + unfold Py.or_else.
      destruct (Py.truthy (Py.get_default d "message" PNone)) eqn:Ht'; [|reflexivity].
      apply (Hs' resp d "message" _ eq_refl Hj (or_intror eq_refl) (Hget _ _ Ht') Ht').
Qed.

(** X6.  On a transport whose answer does not depend on what happened
    before, the outcome of a call depends on the model name and the
    messages only: the same call made from two histories returns the
    same result, or raises the same exception. *)
Theorem call_llm_history_independent model messages t1 t2 :
  (forall t t' req, transport t req = transport t' req) ->
  fst (call_llm py_repr transport model messages t1)
  = fst (call_llm py_repr transport model messages t2).
Proof.
  intro Hst.
  assert (E : exchange py_repr transport model messages t2
              = exchange py_repr transport model messages t1).
  { unfold exchange. apply Hst. }
  by_path py_repr transport model messages t1; try rewrite Hx in E; simpl fst.
  - rewrite (run_ok_status_parsed _ _ _ _ _ _ _ E Hs Hj). reflexivity.
  - rewrite (run_ok_status_value_error _ _ _ _ _ _ _ E Hs Hj Hv). reflexivity.
  - rewrite (run_ok_status_request_error _ _ _ _ _ _ _ E Hs Hj Hv Hr). reflexivity.
  - rewrite (run_ok_status_escapes _ _ _ _ _ _ _ E Hs Hj Hv Hr). reflexivity.
  - rewrite (run_error_status_dict _ _ _ _ _ _ _ E Hs Hj). reflexivity.
  - rewrite (run_error_status_no_dict _ _ _ _ _ _ _ E Hs Hj Hd). reflexivity.
  - rewrite (run_error_status_unparsed _ _ _ _ _ _ _ E Hs Hj He). reflexivity.
  - rewrite (run_error_status_escapes _ _ _ _ _ _ _ E Hs Hj He). reflexivity.
  - rewrite (run_transport_caught _ _ _ _ _ _ E Hr). reflexivity.
  - rewrite (run_transport_escapes _ _ _ _ _ _ E Hr). reflexivity.
Qed.


End AdapterExtras.

(** * Further properties of the form handler *)

Lemma form_value_eqb_judge (v : option string) :
  form_value_eqb v "judge" = true <-> v = Some "judge".
Proof.
  destruct v as [a|]; simpl.
  - rewrite String.eqb_eq. split; [intros ->; reflexivity | intro E; injection E; auto].
  - split; discriminate.
Qed.

Lemma form_value_eqb_not_judge (v : option string) :
  form_value_eqb v "judge" = false <-> v <> Some "judge".
Proof.
  rewrite <- form_value_eqb_judge. destruct (form_value_eqb v "judge"); split;
    congruence.
Qed.

Lemma nonblank_truthy (s : string) : s <> "" -> Py.truthy (PStr s) = true.
Proof. intro H. simpl. apply negb_true_iff, String.eqb_neq, H. Qed.

Section ProcessExtras.

Variable py_repr : PyVal -> string.
Variable transport : Trace -> HttpRequest -> Res Response.

Local Abbreviation source_of form :=
  (Str.strip (form_get_default form "source_text" "")).
Local Abbreviation translate_prompt_of form :=
  ("Переведи на " ++ form_get_default form "language" "English" ++ ": "
   ++ Str.strip (form_get_default form "source_text" "")).
Local Abbreviation translate_call form :=
  (call_llm py_repr transport "Qwen/Qwen3-VL-30B-A3B-Instruct"
     (user_message
        ("Переведи на " ++ form_get_default form "language" "English" ++ ": "
         ++ Str.strip (form_get_default form "source_text" "")))).
Local Abbreviation judge_call form text :=
  (call_llm py_repr transport "claude-sonnet-4-5-20250929"
     (user_message
        (judge_prompt (Str.strip (form_get_default form "source_text" ""))
           (if Py.truthy text then py_str py_repr text else "[нет перевода]")))).

Lemma shown_translation text :
  py_str py_repr (Py.or_else text (PStr "[нет перевода]"))
  = if Py.truthy text then py_str py_repr text else "[нет перевода]".
Proof. unfold Py.or_else. destruct (Py.truthy text); reflexivity. Qed.

(** The translation call raises: so does the handler, there and then. *)
Lemma process_first_raises form t e t1 :
  source_of form <> "" ->
  translate_call form t = (Raise e, t1) ->
  process py_repr transport form t = (Raise e, t1).
Proof.
  intros Hsrc Hcall. unfold process.
  rewrite (nonblank_truthy _ Hsrc). cbv beta iota zeta delta [negb].
  unfold user_message in Hcall. unfold bind at 1. rewrite Hcall. reflexivity.
Qed.

(** Any action but "judge": the view shows the translation call's
    result and empty judge fields. *)
Lemma process_translate_returns form t ok text raw status t1 :
  source_of form <> "" ->
  form_value_eqb (form_get form "action") "judge" = false ->
  translate_call form t = (Val (result ok text raw status), t1) ->
  process py_repr transport form t
  = (Val (render_template "index.html"
            [("source_text", PStr (source_of form));
             ("language", PStr (form_get_default form "language" "English"));
             ("translation", text);
             ("translation_ok", PBool ok);
             ("translation_raw", PStr raw);
             ("judge_text", PNone);
             ("judge_ok", PBool false);
             ("judge_raw", PNone)]), t1).
Proof.
  intros Hsrc Hact Hcall. unfold process.
  rewrite (nonblank_truthy _ Hsrc), Hact. cbv beta iota zeta delta [negb].
  unfold user_message in Hcall. unfold bind at 1. rewrite Hcall. reflexivity.
Qed.

(** Action "judge", and the judge call raises. *)
Lemma process_judge_raises form t ok text raw status t1 e t2 :
  source_of form <> "" ->
  form_value_eqb (form_get form "action") "judge" = true ->
  translate_call form t = (Val (result ok text raw status), t1) ->
  judge_call form text t1 = (Raise e, t2) ->
  process py_repr transport form t = (Raise e, t2).
Proof.
  intros Hsrc Hact Hcall Hjudge. unfold process.
  rewrite (nonblank_truthy _ Hsrc), Hact. cbv beta iota zeta delta [negb].
  unfold user_message in Hcall, Hjudge. unfold judge_prompt in Hjudge.
  unfold bind at 1. rewrite Hcall.
  unfold bind at 1. rewrite field_of_result.
  unfold bind at 1. rewrite field_of_result.
  change (Py.get_default
            [("ok", PBool ok); ("text", text); ("raw", PStr raw);
             ("status_code", status)] "text" PNone) with text.
  rewrite shown_translation.
  unfold bind at 1. unfold bind at 1. rewrite Hjudge. reflexivity.
Qed.

(** Action "judge", and both calls return. *)
Lemma process_judge_returns form t ok text raw status t1 ok' text' raw' status' t2 :
  source_of form <> "" ->
  form_value_eqb (form_get form "action") "judge" = true ->
  translate_call form t = (Val (result ok text raw status), t1) ->
  judge_call form text t1 = (Val (result ok' text' raw' status'), t2) ->
  process py_repr transport form t
  = (Val (render_template "index.html"
            [("source_text", PStr (source_of form));
             ("language", PStr (form_get_default form "language" "English"));
             ("translation", text);
             ("translation_ok", PBool ok);
             ("translation_raw", PStr raw);
             ("judge_text", text');
             ("judge_ok", PBool ok');
             ("judge_raw", PStr raw')]), t2).
Proof.
  intros Hsrc Hact Hcall Hjudge. unfold process.
  rewrite (nonblank_truthy _ Hsrc), Hact. cbv beta iota zeta delta [negb].
  unfold user_message in Hcall, Hjudge. unfold judge_prompt in Hjudge.
  unfold bind at 1. rewrite Hcall.
  unfold bind at 1. rewrite field_of_result.
  unfold bind at 1. rewrite field_of_result.
  change (Py.get_default
            [("ok", PBool ok); ("text", text); ("raw", PStr raw);
             ("status_code", status)] "text" PNone) with text.
  rewrite shown_translation.
  unfold bind at 1. unfold bind at 1. rewrite Hjudge. reflexivity.
Qed.

(** The requests of a submission with a source text: the translation
    request, then at most the judge request. *)
Lemma process_posts form t :
  source_of form <> "" ->
  exists rest,
    posts (snd (process py_repr transport form t))
    = (posts t
       ++ request_for "Qwen/Qwen3-VL-30B-A3B-Instruct" (translate_prompt_of form)
          :: rest)%list
    /\ (length rest <= 1)%nat
    /\ (form_get form "action" <> Some "judge" -> rest = [])
    /\ (forall e, fst (translate_call form t) = Raise e -> rest = [])
    /\ (forall r1 t1,
          form_get form "action" = Some "judge" ->
          translate_call form t = (Val r1, t1) ->
          rest = [request_for "claude-sonnet-4-5-20250929"
                    (judge_prompt (source_of form)
                       (if Py.truthy (field r1 "text")
                        then py_str py_repr (field r1 "text")
                        else "[нет перевода]"))]).
Proof.
  intro Hsrc.
  destruct (form_value_eqb (form_get form "action") "judge") eqn:Hact.
  - destruct (translate_call form t) as [[r1|e1] t1] eqn:Hcall.
    + destruct (call_llm_shape _ _ _ _ _ _ _ Hcall) as (ok & text & raw & st & ->).
      eexists. split.
      { apply (process_judge_posts py_repr transport form t ok text raw st t1
                 Hsrc Hact Hcall). }
      split; [simpl; lia|].
      split; [intro Hn; apply form_value_eqb_judge in Hact; contradiction|].
      split; [intros e E; discriminate E|].
      intros r1 t1' _ E. injection E as <- _. reflexivity.
    + exists []. split.
      { rewrite (process_first_raises form t e1 t1 Hsrc Hcall). simpl snd.
        pose proof (call_llm_posts py_repr transport
                      "Qwen/Qwen3-VL-30B-A3B-Instruct"
                      (user_message (translate_prompt_of form)) t) as Hp.
        rewrite Hcall in Hp. exact Hp. }
      split; [simpl; lia|].
      split; [reflexivity|]. split; [reflexivity|].
      intros r1 t1' _ E. discriminate E.
  - exists []. split.
    { apply (process_translate_posts py_repr transport form t Hsrc Hact). }
    split; [simpl; lia|].
    split; [reflexivity|]. split; [reflexivity|].
    intros r1 t1 Hj _. apply form_value_eqb_not_judge in Hact. contradiction.
Qed.

(** X7.  The handler contacts the API exactly when the stripped source
    text is not empty.  A submission whose source_text is missing, empty
    or all whitespace flashes one message and renders the bare form, the
    view [GET /] renders, with no request and no log record. *)
Theorem process_contacts_api_iff_nonblank form t :
  (posts (snd (process py_repr transport form t)) = posts t
   <-> source_of form = "")
  /\ (source_of form = "" ->
      process py_repr transport form t
      = (fst (index t),
         (t ++ [EvFlash "Пожалуйста, введите исходный текст для перевода."])%list)).
Proof.
  split; [split|].
  - intro Hp. destruct (string_dec (source_of form) "") as [E|Hsrc]; [exact E|].
    destruct (process_posts form t Hsrc) as (rest & Hposts & _).
    rewrite Hposts in Hp.
    apply (f_equal (@length HttpRequest)) in Hp.
    rewrite length_app in Hp. simpl in Hp. lia.
  - intro E. rewrite (process_blank py_repr transport form t E). simpl snd.
    rewrite posts_app. simpl. apply app_nil_r.
  - intro E. apply (process_blank py_repr transport form t E).
Qed.

(** X8.  A submission with a source text makes one request or two, never
    more.  The first is always the translation request, for the Qwen
    model, with the language ("English" when the form has none) and the
    stripped source text in its prompt.  A second one is made only when
    the action is exactly "judge" and the translation call returned; it
    is the judge request built from that call's text. *)
Theorem process_requests form t :
  source_of form <> "" ->
  exists rest,
    posts (snd (process py_repr transport form t))
    = (posts t
       ++ request_for "Qwen/Qwen3-VL-30B-A3B-Instruct"
            ("Переведи на " ++ form_get_default form "language" "English" ++ ": "
             ++ source_of form)
          :: rest)%list
    /\ (length rest <= 1)%nat
    /\ (form_get form "language" = None ->
        form_get_default form "language" "English" = "English")
    /\ (form_get form "action" <> Some "judge" -> rest = [])
    /\ (forall e, fst (translate_call form t) = Raise e -> rest = [])
    /\ (forall r1 t1,
          form_get form "action" = Some "judge" ->
          translate_call form t = (Val r1, t1) ->
          rest = [request_for "claude-sonnet-4-5-20250929"
                    (judge_prompt (source_of form)
                       (if Py.truthy (field r1 "text")
                        then py_str py_repr (field r1 "text")
                        else "[нет перевода]"))]).
Proof.
  intro Hsrc.
  destruct (process_posts form t Hsrc) as (rest & Hp & Hlen & Hnj & Hr & Hj).
  exists rest. split; [exact Hp|]. split; [exact Hlen|].
  split; [intro Hl; unfold form_get_default; rewrite Hl; reflexivity|].
  split; [exact Hnj|]. split; [exact Hr | exact Hj].
Qed.

(** X9.  With any action other than "judge" (or none), when the
    translation call returns, the handler renders index.html with the
    stripped source text, the language, the three fields text, ok and
    raw of that result, and the judge fields left at [None], [False],
    [None]. *)
Theorem process_translate_view form t r1 t1 :
  source_of form <> "" ->
  form_get form "action" <> Some "judge" ->
  translate_call form t = (Val r1, t1) ->
  process py_repr transport form t
  = (Val (render_template "index.html"
            [("source_text", PStr (source_of form));
             ("language", PStr (form_get_default form "language" "English"));
             ("translation", field r1 "text");
             ("translation_ok", field r1 "ok");
             ("translation_raw", field r1 "raw");
             ("judge_text", PNone);
             ("judge_ok", PBool false);
             ("judge_raw", PNone)]), t1).
Proof.
  intros Hsrc Hact Hcall.
  destruct (call_llm_shape _ _ _ _ _ _ _ Hcall) as (ok & text & raw & st & ->).
  apply form_value_eqb_not_judge in Hact.
  apply (process_translate_returns form t ok text raw st t1 Hsrc Hact Hcall).
Qed.

(** X10.  With action "judge", when both calls return, the view shows
    the translation fields from the first result and the judge fields
    from the second; a failed judge call (ok false) changes nothing in
    the translation fields. *)
Theorem process_judge_view form t r1 t1 r2 t2 :
  source_of form <> "" ->
  form_get form "action" = Some "judge" ->
  translate_call form t = (Val r1, t1) ->
  judge_call form (field r1 "text") t1 = (Val r2, t2) ->
  process py_repr transport form t
  = (Val (render_template "index.html"
            [("source_text", PStr (source_of form));
             ("language", PStr (form_get_default form "language" "English"));
             ("translation", field r1 "text");
             ("translation_ok", field r1 "ok");
             ("translation_raw", field r1 "raw");
             ("judge_text", field r2 "text");
             ("judge_ok", field r2 "ok");
             ("judge_raw", field r2 "raw")]), t2).
Proof.
  intros Hsrc Hact Hcall Hjudge.
  destruct (call_llm_shape _ _ _ _ _ _ _ Hcall) as (ok & text & raw & st & ->).
  destruct (call_llm_shape _ _ _ _ _ _ _ Hjudge) as (ok' & text' & raw' & st' & ->).
  apply form_value_eqb_judge in Hact.
  apply (process_judge_returns form t ok text raw st t1 ok' text' raw' st' t2
           Hsrc Hact Hcall Hjudge).
Qed.

(** X11.  The handler raises exactly when one of its adapter calls
    does, and raises that exception: the translation call, or, with
    action "judge" after the translation call returned, the judge
    call.  It catches nothing and adds no failure of its own. *)
Theorem process_raises_iff form t e :
  source_of form <> "" ->
  (fst (process py_repr transport form t) = Raise e
   <-> fst (translate_call form t) = Raise e
       \/ (form_get form "action" = Some "judge"
           /\ exists r1 t1,
               translate_call form t = (Val r1, t1)
               /\ fst (judge_call form (field r1 "text") t1) = Raise e)).
Proof.
  intro Hsrc.
  destruct (translate_call form t) as [[r1|e1] t1] eqn:Hcall.
  - destruct (call_llm_shape _ _ _ _ _ _ _ Hcall) as (ok & text & raw & st & ->).
    destruct (form_value_eqb (form_get form "action") "judge") eqn:Hact.
    + change (field (result ok text raw st) "text") with text.
      destruct (judge_call form text t1) as [[r2|e2] t2] eqn:Hjudge.
      * destruct (call_llm_shape _ _ _ _ _ _ _ Hjudge)
          as (ok' & text' & raw' & st' & ->).
        rewrite (process_judge_returns form t ok text raw st t1 ok' text' raw' st' t2
                   Hsrc Hact Hcall Hjudge).
        simpl fst. split; [discriminate|].
        intros [E|(_ & r & t' & E & E')]; [discriminate E|].
        injection E as <- <-.
        change (field (result ok text raw st) "text") with text in E'.
        rewrite Hjudge in E'. discriminate E'.
      * rewrite (process_judge_raises form t ok text raw st t1 e2 t2
                   Hsrc Hact Hcall Hjudge).
        simpl fst. split.
        -- intro E. injection E as <-. right.
           split; [apply form_value_eqb_judge, Hact|].
           exists (result ok text raw st), t1. split; [reflexivity|].
           change (field (result ok text raw st) "text") with text.
           rewrite Hjudge. reflexivity.
        -- intros [E|(_ & r & t' & E & E')]; [discriminate E|].
           injection E as <- <-.
           change (field (result ok text raw st) "text") with text in E'.
           rewrite Hjudge in E'. simpl in E'. injection E' as ->. reflexivity.
    + rewrite (process_translate_returns form t ok text raw st t1 Hsrc Hact Hcall).
      simpl fst. split; [discriminate|].
      intros [E|(Hj & _)]; [discriminate E|].
      apply form_value_eqb_not_judge in Hact. contradiction.
  - rewrite (process_first_raises form t e1 t1 Hsrc Hcall). simpl fst.
    split; [intro E; injection E as ->; left; reflexivity|].
    intros [E|(_ & r & t' & E & _)]; [|discriminate E].
    simpl in E. injection E as ->. reflexivity.
Qed.

(** X12.  On a transport that honours the contract of [requests] the
    handler never raises: every submission, blank or not, translate or
    judge, whatever the server answers, ends in a rendered index.html. *)
Theorem process_returns_on_honest_transport form t :
  (forall t' req, expected_outcome (transport t' req) = true) ->
  exists view t',
    process py_repr transport form t = (Val view, t')
    /\ view_template view = "index.html".
Proof.
  intro Hc.
  destruct (string_dec (source_of form) "") as [E|Hsrc].
  - rewrite (process_blank py_repr transport form t E).
    do 2 eexists. split; reflexivity.
  - destruct (call_llm_total py_repr transport "Qwen/Qwen3-VL-30B-A3B-Instruct"
                (user_message (translate_prompt_of form)) t (Hc _ _))
      as (ok & text & raw & st & t1 & Hcall & _).
    destruct (form_value_eqb (form_get form "action") "judge") eqn:Hact.
    + destruct (call_llm_total py_repr transport "claude-sonnet-4-5-20250929"
                  (user_message
                     (judge_prompt (source_of form)
                        (if Py.truthy text then py_str py_repr text
                         else "[нет перевода]"))) t1 (Hc _ _))
        as (ok' & text' & raw' & st' & t2 & Hjudge & _).
      rewrite (process_judge_returns form t ok text raw st t1 ok' text' raw' st' t2
                 Hsrc Hact Hcall Hjudge).
      do 2 eexists. split; reflexivity.
    + rewrite (process_translate_returns form t ok text raw st t1 Hsrc Hact Hcall).
      do 2 eexists. split; reflexivity.
Qed.

End ProcessExtras.

(** * The further properties at concrete inputs *)




Lemma call_llm_trace_witness :
  exists tail,
    snd (call_llm Mock.repr (Mock.replies Mock.err_overloaded) "m" [PStr "hi"] [])
    = ([call_log "m"; EvPost (request_for "m" "hi")] ++ tail)%list
    /\ tail = [EvLog WARNING "Mentorpiece returned HTTP %s" [PInt 500] None].
Proof.
  destruct (call_llm_trace Mock.repr (Mock.replies Mock.err_overloaded)
              "m" [PStr "hi"] [])
    as (tail & Htrace & _ & _ & Hwarn & _).
  exists tail. split; [exact Htrace|].
  apply (Hwarn Mock.err_overloaded eq_refl). discriminate.
Defined.

Lemma text_is_string_for_string_fields_witness :
  Py.isinstance_str
    (field (result true (PStr "Bonjour") (resp_text Mock.ok_bonjour) (PInt 200))
       "text") = true.
Proof.
  apply (text_is_string_for_string_fields Mock.repr (Mock.replies Mock.ok_bonjour)
           "m" [PStr "hi"] [] _ (plain_trace Mock.repr "m" [PStr "hi"] []) eq_refl).
  intros resp d k v Hx Hj Hk Hl _.
  unfold exchange, Mock.replies in Hx. injection Hx as <-.
  unfold Mock.ok_bonjour in Hj. simpl in Hj. injection Hj as <-.
  destruct Hk as [-> | ->]; simpl in Hl; [|discriminate Hl].
  injection Hl as <-. reflexivity.
Defined.

Lemma call_llm_history_independent_witness :
  (forall (t t' : Trace) (req : HttpRequest),
      Mock.replies Mock.ok_bonjour t req = Mock.replies Mock.ok_bonjour t' req)
  /\ fst (call_llm Mock.repr (Mock.replies Mock.ok_bonjour) "m" [PStr "hi"] [])
     = fst (call_llm Mock.repr (Mock.replies Mock.ok_bonjour) "m" [PStr "hi"]
              [EvFlash "earlier"]).
Proof.
  assert (H : forall (t t' : Trace) (req : HttpRequest),
             Mock.replies Mock.ok_bonjour t req = Mock.replies Mock.ok_bonjour t' req)
    by reflexivity.
  split; [exact H|].
  apply (call_llm_history_independent Mock.repr (Mock.replies Mock.ok_bonjour)
           "m" [PStr "hi"] [] [EvFlash "earlier"] H).
Defined.


Lemma process_contacts_api_iff_nonblank_witness :
  Str.strip (form_get_default Mock.form_blank "source_text" "") = ""
  /\ posts (snd (process Mock.repr (Mock.replies Mock.ok_bonjour) Mock.form_blank []))
     = [].
Proof.
  split; [reflexivity|].
  apply (proj2 (proj1 (process_contacts_api_iff_nonblank Mock.repr
                         (Mock.replies Mock.ok_bonjour) Mock.form_blank []))).
  reflexivity.
Defined.

Lemma process_requests_witness :
  Str.strip (form_get_default [("source_text", " Hi ")] "source_text" "") <> ""
  /\ exists rest,
      posts (snd (process Mock.repr (Mock.replies Mock.ok_bonjour)
                    [("source_text", " Hi ")] []))
      = request_for "Qwen/Qwen3-VL-30B-A3B-Instruct" "Переведи на English: Hi" :: rest
      /\ rest = [].
Proof.
  assert (Hsrc : Str.strip (form_get_default [("source_text", " Hi ")]
                              "source_text" "") <> "") by discriminate.
  split; [exact Hsrc|].
  destruct (process_requests Mock.repr (Mock.replies Mock.ok_bonjour)
              [("source_text", " Hi ")] [] Hsrc)
    as (rest & Hposts & _ & _ & Hnj & _).
  exists rest. split; [exact Hposts|].
  apply Hnj. discriminate.
Defined.

Lemma process_translate_view_witness :
  exists view,
    fst (process Mock.repr (Mock.replies Mock.ok_bonjour) Mock.form_translate [])
    = Val view
    /\ Py.lookup "translation" (view_context view) = Some (PStr "Bonjour")
    /\ Py.lookup "judge_text" (view_context view) = Some PNone.
Proof.
  assert (Hsrc : Str.strip (form_get_default Mock.form_translate "source_text" "")
                 <> "") by discriminate.
  assert (Hact : form_get Mock.form_translate "action" <> Some "judge")
    by discriminate.
  rewrite (process_translate_view Mock.repr (Mock.replies Mock.ok_bonjour)
             Mock.form_translate []
             (result true (PStr "Bonjour") (resp_text Mock.ok_bonjour) (PInt 200))
             _ Hsrc Hact eq_refl).
  eexists. split; [reflexivity|]. split; reflexivity.
Defined.

Lemma process_judge_view_witness :
  exists view,
    fst (process Mock.repr (Mock.replies Mock.err_overloaded) Mock.form_judge [])
    = Val view
    /\ Py.lookup "translation" (view_context view) = Some (PStr "overloaded")
    /\ Py.lookup "judge_ok" (view_context view) = Some (PBool false).
Proof.
  assert (Hsrc : Str.strip (form_get_default Mock.form_judge "source_text" "") <> "")
    by discriminate.
  rewrite (process_judge_view Mock.repr (Mock.replies Mock.err_overloaded)
             Mock.form_judge []
             (result false (PStr "overloaded") (resp_text Mock.err_overloaded)
                (PInt 500))
             _
             (result false (PStr "overloaded") (resp_text Mock.err_overloaded)
                (PInt 500))
             _ Hsrc eq_refl eq_refl eq_refl).
  eexists. split; [reflexivity|]. split; reflexivity.
Defined.

Lemma process_raises_iff_witness :
  Str.strip (form_get_default Mock.form_judge "source_text" "") <> ""
  /\ fst (process Mock.repr (Mock.fails Mock.broken) Mock.form_judge [])
     = Raise Mock.broken.
Proof.
  assert (Hsrc : Str.strip (form_get_default Mock.form_judge "source_text" "") <> "")
    by discriminate.
  split; [exact Hsrc|].
  apply (proj2 (process_raises_iff Mock.repr (Mock.fails Mock.broken)
                  Mock.form_judge [] Mock.broken Hsrc)).
  left. reflexivity.
Defined.

Lemma process_returns_on_honest_transport_witness :
  (forall (t' : Trace) (req : HttpRequest),
      expected_outcome (Mock.replies Mock.err_empty_body t' req) = true)
  /\ exists view t',
      process Mock.repr (Mock.replies Mock.err_empty_body) Mock.form_judge []
      = (Val view, t')
      /\ view_template view = "index.html".
Proof.
  assert (H : forall (t' : Trace) (req : HttpRequest),
             expected_outcome (Mock.replies Mock.err_empty_body t' req) = true)
    by reflexivity.
  split; [exact H|].
  apply (process_returns_on_honest_transport Mock.repr
           (Mock.replies Mock.err_empty_body) Mock.form_judge [] H).
Defined.
